(** * Log-artifact error surveillance: [cardano_node_tests/utils/logfiles.py]

    A shallow embedding of the module that scans the log files of a local
    cluster for errors: the rotation resolver ([get_rotated_logs]), the
    ignore-rule store ([add_ignore_rule], [del_rules_file],
    [get_ignore_rules], [get_ignore_regex]), the scoped-expectation verifier
    ([expect_errors]) and the sweep scanner ([search_cluster_artifacts]).

    The state directory is a finite map from file names to files, every
    function of the module is a computation in a state-and-exception monad
    over that directory, and the Python library functions the module calls
    ([re], [fnmatch], [str.split], [int], text-mode line iteration) are
    modelled for the fragment of their input language the module uses. *)

From Stdlib Require Import ZArith String Ascii List Lia DecimalString DecimalN.
From stdpp Require Import base gmap strings list fin_maps.

Local Open Scope string_scope.
Local Open Scope list_scope.
Local Open Scope Z_scope.

(** ** Characters and strings *)

Definition chars (s : string) : list ascii := list_ascii_of_string s.

Definition NL : ascii := "010"%char.
Definition CR : ascii := "013"%char.

Definition is_digit (c : ascii) : bool :=
  (Ascii.leb "0" c && Ascii.leb c "9")%char.

Definition is_upper (c : ascii) : bool :=
  (Ascii.leb "A" c && Ascii.leb c "Z")%char.

Definition is_lower (c : ascii) : bool :=
  (Ascii.leb "a" c && Ascii.leb c "z")%char.

Definition is_alnum (c : ascii) : bool :=
  is_digit c || is_upper c || is_lower c.

Definition is_ascii (c : ascii) : bool := (nat_of_ascii c <? 128)%nat.

(** [str.lower] on one ASCII character. *)
Definition lower (c : ascii) : ascii :=
  if is_upper c then ascii_of_nat (nat_of_ascii c + 32) else c.

Definition upper (c : ascii) : ascii :=
  if is_lower c then ascii_of_nat (nat_of_ascii c - 32) else c.

(** Python's [str.isspace] on the one-byte characters: TAB, LF, VT, FF, CR,
    the four separators FS..US and the space. *)
Definition is_space (c : ascii) : bool :=
  let n := nat_of_ascii c in
  ((9 <=? n) && (n <=? 13) || (28 <=? n) && (n <=? 32))%nat.

(** [s.endswith(suffix)] *)
Fixpoint prefix_of (p s : list ascii) : bool :=
  match p, s with
  | [], _ => true
  | a :: p', b :: s' => Ascii.eqb a b && prefix_of p' s'
  | _ :: _, [] => false
  end.

Definition endswith (s suffix : string) : bool :=
  prefix_of (rev (chars suffix)) (rev (chars s)).

(** [sep.join(parts)] *)
Definition join (sep : string) (parts : list string) : string :=
  String.concat sep parts.

(** ** The regular expressions of the module ([re])

    The module compiles its patterns with [re.compile] and uses
    [Pattern.search] and [Pattern.match] only for their truth value.  The
    model covers the syntax the module's own patterns are written in:
    literal characters, [.], a backslash before a punctuation character,
    bracketed classes with ranges, the postfix operators [*], [+] and [?]
    on one atom, and [|] at top level.  [re_compile] answers [None] on
    anything else: on what Python rejects too (a dangling backslash,
    nothing to repeat, an unterminated class) and on syntax outside the
    fragment (groups, anchors, counted repeats, letter escapes). *)

Inductive cset : Type :=
| CAny                                      (* [.]: any character but LF *)
| CLit (c : ascii)
| CClass (neg : bool) (ranges : list (ascii * ascii)).

Inductive regex : Type :=
| Void
| Eps
| Sym (cs : cset)
| Cat (r1 r2 : regex)
| Alt (r1 r2 : regex)
| Star (r : regex).

Inductive token : Type :=
| TSym (cs : cset)
| TStar
| TPlus
| TQuest
| TBar.

(** The lexer is a state machine over the characters of the pattern. *)
Inductive lex_mode : Type :=
| MTop
| MEsc                                              (* after a backslash *)
| MOpen                                             (* after [[] *)
| MFirst (neg : bool)                               (* first member due *)
| MBody (neg : bool) (acc : list (ascii * ascii))
| MPend (neg : bool) (acc : list (ascii * ascii)) (a : ascii)
| MRange (neg : bool) (acc : list (ascii * ascii)) (a : ascii).

Definition class_plain (c : ascii) : bool :=
  negb (Ascii.eqb c "\" || Ascii.eqb c "[")%char.

Definition lex_step (m : lex_mode) (c : ascii)
  : option (lex_mode * list token) :=
  match m with
  | MTop =>
      if Ascii.eqb c "\" then Some (MEsc, [])
      else if Ascii.eqb c "." then Some (MTop, [TSym CAny])
      else if Ascii.eqb c "[" then Some (MOpen, [])
      else if Ascii.eqb c "*" then Some (MTop, [TStar])
      else if Ascii.eqb c "+" then Some (MTop, [TPlus])
      else if Ascii.eqb c "?" then Some (MTop, [TQuest])
      else if Ascii.eqb c "|" then Some (MTop, [TBar])
      else if (Ascii.eqb c "(" || Ascii.eqb c ")" || Ascii.eqb c "{"
               || Ascii.eqb c "}" || Ascii.eqb c "^" || Ascii.eqb c "$"
               || Ascii.eqb c "]")%char%bool then None
      else Some (MTop, [TSym (CLit c)])
  | MEsc =>
      if is_ascii c && negb (is_alnum c) then Some (MTop, [TSym (CLit c)])
      else None
  | MOpen =>
      if Ascii.eqb c "^" then Some (MFirst true, [])
      else if class_plain c && negb (Ascii.eqb c "]")
      then Some (MPend false [] c, []) else None
  | MFirst neg =>
      if class_plain c && negb (Ascii.eqb c "]")
      then Some (MPend neg [] c, []) else None
  | MBody neg acc =>
      if Ascii.eqb c "]" then Some (MTop, [TSym (CClass neg (rev acc))])
      else if class_plain c then Some (MPend neg acc c, []) else None
  | MPend neg acc a =>
      if Ascii.eqb c "]"
      then Some (MTop, [TSym (CClass neg (rev ((a, a) :: acc)))])
      else if Ascii.eqb c "-" then Some (MRange neg acc a, [])
      else if class_plain c then Some (MPend neg ((a, a) :: acc) c, [])
      else None
  | MRange neg acc a =>
      if Ascii.eqb c "]"
      then Some (MTop,
                 [TSym (CClass neg (rev (("-", "-")%char :: (a, a) :: acc)))])
      else if class_plain c && Ascii.leb a c
      then Some (MBody neg ((a, c) :: acc), [])
      else None
  end.

Fixpoint lex (m : lex_mode) (cs : list ascii) : option (list token) :=
  match cs with
  | [] => match m with MTop => Some [] | _ => None end
  | c :: cs' =>
      match lex_step m c with
      | Some (m', out) =>
          match lex m' cs' with
          | Some ts => Some (out ++ ts)
          | None => None
          end
      | None => None
      end
  end.

Definition Plus (r : regex) : regex := Cat r (Star r).
Definition Opt (r : regex) : regex := Alt r Eps.

(** The alternatives of a pattern, left to right: the first one and the
    list of the others.  A postfix operator binds to the atom before it. *)
Fixpoint parse_alts (ts : list token) : option (regex * list regex) :=
  match ts with
  | [] => Some (Eps, [])
  | TBar :: ts' =>
      match parse_alts ts' with
      | Some (r, rs) => Some (Eps, r :: rs)
      | None => None
      end
  | TSym cs :: TStar :: ts' =>
      match parse_alts ts' with
      | Some (r, rs) => Some (Cat (Star (Sym cs)) r, rs)
      | None => None
      end
  | TSym cs :: TPlus :: ts' =>
      match parse_alts ts' with
      | Some (r, rs) => Some (Cat (Plus (Sym cs)) r, rs)
      | None => None
      end
  | TSym cs :: TQuest :: ts' =>
      match parse_alts ts' with
      | Some (r, rs) => Some (Cat (Opt (Sym cs)) r, rs)
      | None => None
      end
  | TSym cs :: ts' =>
      match parse_alts ts' with
      | Some (r, rs) => Some (Cat (Sym cs) r, rs)
      | None => None
      end
  | _ => None
  end.

(** A compiled pattern: its alternatives and the [re.IGNORECASE] flag. *)
Record pattern : Type := Pattern { alts : list regex; icase : bool }.

Definition re_compile (pat : string) (ignorecase : bool) : option pattern :=
  match lex MTop (chars pat) with
  | Some ts =>
      match parse_alts ts with
      | Some (r, rs) => Some (Pattern (r :: rs) ignorecase)
      | None => None
      end
  | None => None
  end.

Definition in_range (c : ascii) (r : ascii * ascii) : bool :=
  Ascii.leb (fst r) c && Ascii.leb c (snd r).

Definition sym_match (ic : bool) (cs : cset) (c : ascii) : bool :=
  match cs with
  | CAny => negb (Ascii.eqb c NL)
  | CLit a => if ic then Ascii.eqb (lower a) (lower c) else Ascii.eqb a c
  | CClass neg ranges =>
      xorb neg
        (if ic
         then existsb (in_range (lower c)) ranges
              || existsb (in_range (upper c)) ranges
         else existsb (in_range c) ranges)
  end.

Fixpoint nullable (r : regex) : bool :=
  match r with
  | Void => false
  | Eps => true
  | Sym _ => false
  | Cat r1 r2 => nullable r1 && nullable r2
  | Alt r1 r2 => nullable r1 || nullable r2
  | Star _ => true
  end.

(** Brzozowski derivative: what is left of [r] after reading [c]. *)
Fixpoint deriv (ic : bool) (c : ascii) (r : regex) : regex :=
  match r with
  | Void => Void
  | Eps => Void
  | Sym cs => if sym_match ic cs c then Eps else Void
  | Cat r1 r2 =>
      if nullable r1
      then Alt (Cat (deriv ic c r1) r2) (deriv ic c r2)
      else Cat (deriv ic c r1) r2
  | Alt r1 r2 => Alt (deriv ic c r1) (deriv ic c r2)
  | Star r1 => Cat (deriv ic c r1) (Star r1)
  end.

(** [r] matches some prefix of [s]. *)
Fixpoint match_prefix (ic : bool) (r : regex) (s : list ascii) : bool :=
  nullable r
  || match s with
     | [] => false
     | c :: s' => match_prefix ic (deriv ic c r) s'
     end.

(** [r] matches somewhere in [s]. *)
Fixpoint match_anywhere (ic : bool) (r : regex) (s : list ascii) : bool :=
  match_prefix ic r s
  || match s with
     | [] => false
     | _ :: s' => match_anywhere ic r s'
     end.

(** [pattern.match(s)] as a truth value: a match at the start of [s]. *)
Definition re_match (p : pattern) (s : string) : bool :=
  existsb (fun r => match_prefix (icase p) r (chars s)) (alts p).

(** [pattern.search(s)] as a truth value: a match anywhere in [s]. *)
Definition re_search (p : pattern) (s : string) : bool :=
  existsb (fun r => match_anywhere (icase p) r (chars s)) (alts p).

(** ** Shell-style wildcards ([fnmatch], and [Path.glob] on one directory)

    [*] matches any run of characters, [?] any one character, [[seq]] and
    [[!seq]] a character that is (not) in [seq]; a [[] that is never closed
    is an ordinary character.  Matching is case-sensitive and covers the
    whole name. *)

Inductive gtoken : Type :=
| GStar
| GQuest
| GLit (c : ascii)
| GSet (neg : bool) (ranges : list (ascii * ascii)).

Fixpoint split_close (cs : list ascii) : option (list ascii * list ascii) :=
  match cs with
  | [] => None
  | c :: cs' =>
      if Ascii.eqb c "]" then Some ([], cs')
      else match split_close cs' with
           | Some (body, rest) => Some (c :: body, rest)
           | None => None
           end
  end.

(** What follows a [[]: the negation mark, the members and the rest of the
    pattern; a []] right after the opening (or after [!]) is a member. *)
Definition bracket (cs : list ascii)
  : option (bool * list ascii * list ascii) :=
  let '(neg, r1) :=
    match cs with
    | c :: r => if Ascii.eqb c "!" then (true, r) else (false, cs)
    | [] => (false, cs)
    end in
  let '(first, r2) :=
    match r1 with
    | c :: r => if Ascii.eqb c "]" then ([c], r) else ([], r1)
    | [] => ([], r1)
    end in
  match split_close r2 with
  | Some (body, rest) => Some (neg, first ++ body, rest)
  | None => None
  end.

Fixpoint set_items (cs : list ascii) : list (ascii * ascii) :=
  match cs with
  | a :: r =>
      match r with
      | m :: b :: r' =>
          if Ascii.eqb m "-" then (a, b) :: set_items r'
          else (a, a) :: set_items r
      | _ => (a, a) :: set_items r
      end
  | [] => []
  end.

Fixpoint glob_lex (fuel : nat) (cs : list ascii) : list gtoken :=
  match fuel with
  | O => []
  | S f =>
      match cs with
      | [] => []
      | c :: r =>
          if Ascii.eqb c "*" then GStar :: glob_lex f r
          else if Ascii.eqb c "?" then GQuest :: glob_lex f r
          else if Ascii.eqb c "[" then
            match bracket r with
            | Some (neg, members, rest) =>
                GSet neg (set_items members) :: glob_lex f rest
            | None => GLit c :: glob_lex f r
            end
          else GLit c :: glob_lex f r
      end
  end.

Fixpoint glob_match (ts : list gtoken) (s : list ascii) : bool :=
  match ts with
  | [] => match s with [] => true | _ => false end
  | GStar :: ts' =>
      (fix star (s : list ascii) : bool :=
         glob_match ts' s
         || match s with
            | [] => false
            | _ :: s' => star s'
            end) s
  | GQuest :: ts' =>
      match s with
      | _ :: s' => glob_match ts' s'
      | [] => false
      end
  | GLit a :: ts' =>
      match s with
      | c :: s' => Ascii.eqb a c && glob_match ts' s'
      | [] => false
      end
  | GSet neg ranges :: ts' =>
      match s with
      | c :: s' => xorb neg (existsb (in_range c) ranges) && glob_match ts' s'
      | [] => false
      end
  end.

(** [fnmatch.fnmatch(name, pat)] *)
Definition fnmatch (name pat : string) : bool :=
  glob_match (glob_lex (List.length (chars pat)) (chars pat)) (chars name).

(** ** Python string functions used by the module *)

(** Text-mode reading with the default [newline=None]: CR LF and a lone CR
    arrive as LF. *)
Fixpoint universal_newlines (s : string) : string :=
  match s with
  | EmptyString => EmptyString
  | String c s' =>
      if Ascii.eqb c CR then
        match s' with
        | String c2 s'' =>
            if Ascii.eqb c2 NL then String NL (universal_newlines s'')
            else String NL (universal_newlines s')
        | EmptyString => String NL EmptyString
        end
      else String c (universal_newlines s')
  end.

(** The lines of a text, each with its terminating LF (the last line has
    none when the text does not end in one). *)
Fixpoint lines_of (s : string) : list string :=
  match s with
  | EmptyString => []
  | String c s' =>
      if Ascii.eqb c NL then String c EmptyString :: lines_of s'
      else match lines_of s' with
           | [] => [String c EmptyString]
           | l :: ls => String c l :: ls
           end
  end.

Fixpoint drop_chars (n : nat) (s : string) : string :=
  match n, s with
  | O, _ => s
  | S n', String _ s' => drop_chars n' s'
  | S _, EmptyString => EmptyString
  end.

(** [line.split(";;")]: the separator is searched left to right. *)
Fixpoint split_rule (s : string) : list string :=
  match s with
  | EmptyString => [EmptyString]
  | String c s' =>
      let keep :=
        match split_rule s' with
        | h :: t => String c h :: t
        | [] => [String c EmptyString]
        end in
      if Ascii.eqb c ";" then
        match s' with
        | String c2 s'' =>
            if Ascii.eqb c2 ";" then EmptyString :: split_rule s'' else keep
        | EmptyString => keep
        end
      else keep
  end.

Fixpoint drop_while (p : ascii -> bool) (cs : list ascii) : list ascii :=
  match cs with
  | c :: cs' => if p c then drop_while p cs' else cs
  | [] => []
  end.

Definition unchars (cs : list ascii) : string := string_of_list_ascii cs.

(** [s.rstrip(LF)] *)
Definition rstrip_newline (s : string) : string :=
  unchars (rev (drop_while (Ascii.eqb NL) (rev (chars s)))).

(** [s.strip()] *)
Definition strip (s : string) : string :=
  unchars (rev (drop_while is_space (rev (drop_while is_space (chars s))))).

(** The digits of an integer literal: decimal digits, single underscores
    allowed between two of them. *)
Fixpoint int_body (after_digit : bool) (cs : list ascii) : bool :=
  match cs with
  | [] => after_digit
  | c :: cs' =>
      if is_digit c then int_body true cs'
      else if Ascii.eqb c "_" then after_digit && int_body false cs'
      else false
  end.

Definition int_digits (cs : list ascii) : option N :=
  if int_body false cs then
    match NilZero.uint_of_string (unchars (filter (fun c => is_digit c) cs)) with
    | Some d => Some (N.of_uint d)
    | None => None
    end
  else None.

(** [int(s)]: [None] stands for [ValueError]. *)
Definition py_int (s : string) : option Z :=
  match chars (strip s) with
  | c :: cs =>
      if Ascii.eqb c "-" then option_map (fun n => - Z.of_N n) (int_digits cs)
      else if Ascii.eqb c "+" then option_map Z.of_N (int_digits cs)
      else option_map Z.of_N (int_digits (c :: cs))
  | [] => None
  end.

(** [str(n)] for an integer. *)
Definition py_str (n : Z) : string :=
  if n <? 0 then String "-" (NilZero.string_of_uint (N.to_uint (Z.to_N (- n))))
  else NilZero.string_of_uint (N.to_uint (Z.to_N n)).

(** ** The state directory and its effects

    A file is its text and its modification time.  File names are single
    path components of the state directory; the directory holds regular
    files only.  Modification times are readings of one clock, an integer
    count of ticks (the module only compares them): a write stamps the file
    with the current reading and the clock then moves on by the next of the
    pending increments. *)

Record file : Type := File { content : string; mtime : Z }.

Inductive event : Type :=
| Acquire (lock : string)
| Release (lock : string)
| Listdir (pat : string)
| Stat (name : string)
| Read (name : string)
| Write (name : string)
| Unlink (name : string).

(** What [cluster_nodes.get_cluster_env()], [temptools.get_basetemp()] and
    [VERSIONS] answer; none of them changes during a run. *)
Record cluster_env : Type := ClusterEnv {
  state_dir : string;
  instance_num : N;
  basetemp : string;
  cluster_era_alonzo : bool
}.

Record world : Type := World {
  files : gmap string file;
  clock : Z;
  ticks : list Z;
  trace : list event;
  cluster : cluster_env
}.

Inductive exn : Type :=
| ValueError
| FileNotFoundError
| ReError
| AssertionError (msg : string).

Inductive res (A : Type) : Type :=
| Ok (a : A)
| Raise (e : exn).
Arguments Ok {A} a.
Arguments Raise {A} e.

Definition M (A : Type) : Type := world -> res A * world.

Definition ret {A} (a : A) : M A := fun w => (Ok a, w).

Definition raise {A} (e : exn) : M A := fun w => (Raise e, w).

Definition bind {A B} (m : M A) (k : A -> M B) : M B :=
  fun w =>
    match m w with
    | (Ok a, w') => k a w'
    | (Raise e, w') => (Raise e, w')
    end.

Notation "x <~ m ;; k" := (bind m (fun x => k))
  (at level 100, m at next level, right associativity).
Notation "m ;;; k" := (bind m (fun _ => k))
  (at level 100, right associativity).

(** A [for] loop that carries an accumulator. *)
Fixpoint foldM {A B} (f : B -> A -> M B) (acc : B) (xs : list A) : M B :=
  match xs with
  | [] => ret acc
  | x :: xs' => acc' <~ f acc x ;; foldM f acc' xs'
  end.

Fixpoint mapM {A B} (f : A -> M B) (xs : list A) : M (list B) :=
  match xs with
  | [] => ret []
  | x :: xs' => y <~ f x ;; ys <~ mapM f xs' ;; ret (y :: ys)
  end.

Definition emit (e : event) : M unit :=
  fun w => (Ok tt, World (files w) (clock w) (ticks w) (trace w ++ [e])
                     (cluster w)).

Definition get_files : M (gmap string file) := fun w => (Ok (files w), w).

Definition get_cluster_env : M cluster_env := fun w => (Ok (cluster w), w).

(** Store [f] under [name], stamped with the clock, and let time pass. *)
Definition store (name : string) (text : string) : M unit :=
  fun w =>
    (Ok tt,
     World (<[name := File text (clock w)]> (files w))
       (clock w + hd 0 (ticks w)) (tl (ticks w)) (trace w) (cluster w)).


(** [time.time()] *)
Definition time_time : M Z :=
  fun w =>
    (Ok (clock w),
     World (files w) (clock w + hd 0 (ticks w)) (tl (ticks w)) (trace w)
       (cluster w)).

(** [list(directory.glob(pat))]: the names of the directory that match
    [pat]; [Path.glob] refuses the empty pattern. *)
Definition path_glob (pat : string) : M (list string) :=
  emit (Listdir pat) ;;;
  if String.eqb pat "" then raise ValueError
  else
    fs <~ get_files ;;
    ret (filter (fun name => fnmatch name pat) (map fst (map_to_list fs))).

(** [path.exists()] *)
Definition path_exists (name : string) : M bool :=
  emit (Stat name) ;;;
  fs <~ get_files ;;
  ret (match fs !! name with Some _ => true | None => false end).

(** [os.path.getmtime(path)] *)
Definition getmtime (name : string) : M Z :=
  emit (Stat name) ;;;
  fs <~ get_files ;;
  match fs !! name with
  | Some f => ret (mtime f)
  | None => raise FileNotFoundError
  end.

(** Modelled from the spec: [helpers.get_eof_offset], which is not part of
    the sources at hand; it answers "the current end-of-file offset" of the
    file, its length in bytes. *)
Definition get_eof_offset (name : string) : M Z :=
  emit (Stat name) ;;;
  fs <~ get_files ;;
  match fs !! name with
  | Some f => ret (Z.of_nat (String.length (content f)))
  | None => raise FileNotFoundError
  end.

(** [with open(name, encoding="utf-8") as infile: ...]: the text of the
    file. *)
Definition open_read (name : string) : M string :=
  emit (Read name) ;;;
  fs <~ get_files ;;
  match fs !! name with
  | Some f => ret (content f)
  | None => raise FileNotFoundError
  end.

(** [infile.seek(seek)] followed by [for line in infile]: the lines from
    byte [seek] on; a negative position is a [ValueError]. *)
Definition lines_from (text : string) (seek : Z) : M (list string) :=
  if seek <? 0 then raise ValueError
  else ret (lines_of (universal_newlines (drop_chars (Z.to_nat seek) text))).

(** [with open(name, "w") as outfile: outfile.write(text)], where [text] is
    computed after the file has been opened (and so truncated). *)
Definition open_write (name : string) (text : M string) : M unit :=
  emit (Write name) ;;;
  store name "" ;;;
  s <~ text ;;
  store name s.

(** [with open(name, "a") as f: f.write(text)] *)
Definition open_append (name : string) (text : string) : M unit :=
  emit (Write name) ;;;
  fs <~ get_files ;;
  store name (match fs !! name with
              | Some f => content f +:+ text
              | None => text
              end).


(** Modelled from the spec: [locking.FileLockIfXdist], which is not part of
    the sources at hand: "a scoped acquisition of a single named advisory
    file lock ... then released".  The lock is released on every way out of
    the block. *)
Definition with_lock {A} (lock : string) (body : M A) : M A :=
  fun w =>
    match (emit (Acquire lock) ;;; body) w with
    | (r, w') => (r, snd (emit (Release lock) w'))
    end.


(** ** The module: constants *)

Definition compiled (pat : string) (ignorecase : bool) : pattern :=
  match re_compile pat ignorecase with
  | Some p => p
  | None => Pattern [] ignorecase
  end.

(* detect rotated log file *)
Definition ROTATED_RE : pattern := compiled ".+\.[0-9]+" false.

Definition ERRORS_RE : pattern := compiled ":error:|failed|failure" true.

Definition ERRORS_IGNORED (alonzo : bool) : list string :=
  [ "Connection Attempt Exception";
    "EKGServerStartupError";
    "ExceededTimeLimit";
    "Failed to start all required subscriptions";
    "TraceDidntAdoptBlock";
    "failedScripts";
    "closed when reading data, waiting on next header";
    "MuxIOException writev: resource vanished";
    "MuxIOException Network\.Socket\.recvBuf: resource vanished";
    "db-sync-node:.* AsyncCancelled";
    "db-sync-node:.* validateEpochRewardsBefore";
    "db-sync-node:.*could not serialize access" ]
  ++ (if alonzo then ["cardano\.node\.Mempool:Info"] else []).

Definition ERRORS_RULES_FILE_NAME : string := ".errors_rules".

(** ** Rotation resolver *)

Module RotableLog.
Record t : Type := Make {
  logfile : string;
  seek : Z;
  timestamp : Z
}.
End RotableLog.

(** [sorted(records, key=lambda r: r.timestamp, reverse=True)]: newest
    first; the sort is stable, records with equal keys keep their order. *)
Fixpoint insert_desc (x : RotableLog.t) (l : list RotableLog.t)
  : list RotableLog.t :=
  match l with
  | [] => [x]
  | y :: l' =>
      if RotableLog.timestamp x <? RotableLog.timestamp y
      then y :: insert_desc x l'
      else x :: l
  end.

Definition sorted_reverse (l : list RotableLog.t) : list RotableLog.t :=
  foldr insert_desc [] l.

Definition get_rotated_logs (logfile : string) (seek timestamp : Z)
  : M (list RotableLog.t) :=
  (* get logfile including rotated versions *)
  logfiles <~ path_glob (logfile +:+ "*") ;;
  (* get list of logfiles modified after `timestamp` *)
  _logfile_records <~
    mapM (fun f => t <~ getmtime f ;; ret (RotableLog.Make f 0 t)) logfiles ;;
  let _logfile_records :=
    filter (fun r => timestamp <? RotableLog.timestamp r) _logfile_records in
  let logfile_records := sorted_reverse _logfile_records in
  match logfile_records with
  | [] => ret []
  | oldest_record :: rest =>
      let oldest_record :=
        RotableLog.Make (RotableLog.logfile oldest_record) seek
          (RotableLog.timestamp oldest_record) in
      ret (oldest_record :: rest)
  end.

(** ** Ignore-rule store *)

Definition rules_lock (env : cluster_env) : string :=
  basetemp env +:+ "/ignore_rules_" +:+ py_str (Z.of_N (instance_num env))
  +:+ ".lock".

Definition rules_file_of (rules_file_id : string) : string :=
  ERRORS_RULES_FILE_NAME +:+ "_" +:+ rules_file_id.

Definition add_ignore_rule (files_glob regex rules_file_id : string) : M unit :=
  cluster_env <~ get_cluster_env ;;
  let rules_file := rules_file_of rules_file_id in
  with_lock (rules_lock cluster_env)
    (open_append rules_file (files_glob +:+ ";;" +:+ regex +:+ String NL "")).


(** One turn of the loop over the lines of a rules file. *)
Definition rule_of_line (rules : list (string * string)) (line : string)
  : M (list (string * string)) :=
  match split_rule line with
  | [_] => ret rules                           (* no separator: continue *)
  | [files_glob; regex] => ret (rules ++ [(files_glob, rstrip_newline regex)])
  | _ => raise ValueError                      (* too many values to unpack *)
  end.

Definition get_ignore_rules : M (list (string * string)) :=
  cluster_env <~ get_cluster_env ;;
  with_lock (rules_lock cluster_env)
    (rules_files <~ path_glob (ERRORS_RULES_FILE_NAME +:+ "_*") ;;
     foldM (fun rules rules_file =>
              infile <~ open_read rules_file ;;
              foldM rule_of_line rules (lines_of (universal_newlines infile)))
       [] rules_files).

(** The local [regex_set] of [get_ignore_regex]: the baseline and the regex
    of every rule whose glob matches the name of the log file. *)
Definition regex_set (ignore_rules : list (string * string))
    (regexes : list string) (logfile : string) : gset string :=
  foldl (fun (acc : gset string) (record : string * string) =>
           let '(files_glob, regex) := record in
           if fnmatch logfile files_glob then acc ∪ {[ regex ]} else acc)
    (list_to_set regexes) ignore_rules.

Definition get_ignore_regex (ignore_rules : list (string * string))
    (regexes : list string) (logfile : string) : string :=
  join "|" (elements (regex_set ignore_rules regexes logfile)).

(** ** Scoped-expectation verifier

    [expect_errors] is a context manager: the code before its [yield] runs
    on entry, the code after it on exit, and what the entry computed (the
    pairs, the recorded offsets and the time stamp) is still there on exit.
    Paths are kept as names inside the state directory; [str_path] is the
    string Python matches and prints. *)

Definition str_path (env : cluster_env) (name : string) : string :=
  state_dir env +:+ "/" +:+ name.

(** [d[k] = v] on a dictionary kept in insertion order. *)
Fixpoint dict_set (d : list (string * Z)) (k : string) (v : Z)
  : list (string * Z) :=
  match d with
  | [] => [(k, v)]
  | (k', v') :: d' =>
      if String.eqb k' k then (k', v) :: d' else (k', v') :: dict_set d' k v
  end.

(** [d.get(k)] *)
Fixpoint dict_get (d : list (string * Z)) (k : string) : option Z :=
  match d with
  | [] => None
  | (k', v') :: d' => if String.eqb k' k then Some v' else dict_get d' k
  end.

Record expectation : Type := Expectation {
  regex_pairs : list (string * string);
  seek_offsets : list (string * Z);
  entered_at : Z
}.

Definition expect_errors_enter (regex_pairs : list (string * string))
    (rules_file_id : string) : M expectation :=
  glob_list <~
    foldM (fun glob_list (pair : string * string) =>
             let '(files_glob, regex) := pair in
             add_ignore_rule files_glob regex rules_file_id ;;;
             ret (glob_list ++ [files_glob]))
      [] regex_pairs ;;
  (* resolve the globs *)
  _expanded_paths <~ mapM path_glob glob_list ;;
  (* flatten the list *)
  let expanded_paths := concat _expanded_paths in
  (* record each end-of-file as a starting offset *)
  seek_offsets <~
    foldM (fun d p => eof <~ get_eof_offset p ;; ret (dict_set d p eof))
      [] expanded_paths ;;
  timestamp <~ time_time ;;
  ret (Expectation regex_pairs seek_offsets timestamp).

(** The inner loop over the versions of one log file; [true] stands for
    leaving it by [break]. *)
Fixpoint search_rotated (regex_comp : pattern) (seek : Z)
    (records : list RotableLog.t) : M bool :=
  match records with
  | [] => ret false
  | logfile_rec :: rest =>
      infile <~ open_read (RotableLog.logfile logfile_rec) ;;
      lines <~ lines_from infile seek ;;
      if existsb (re_search regex_comp) lines then ret true
      else search_rotated regex_comp seek rest
  end.

Definition re_compile_or_raise (regex : string) : M pattern :=
  match re_compile regex false with
  | Some p => ret p
  | None => raise ReError
  end.

(** One turn of the loop over [regex_pairs] after the [yield]. *)
Definition expect_pair (e : expectation) (pair : string * string) : M unit :=
  let '(files_glob, regex) := pair in
  env <~ get_cluster_env ;;
  regex_comp <~ re_compile_or_raise regex ;;
  (* get list of records (file names and offsets) for given glob *)
  let matching_files :=
    filter (fun p => fnmatch (str_path env p) (str_path env files_glob))
      (map fst (seek_offsets e)) in
  foldM (fun (_ : unit) logfile =>
           (* skip if the log file is rotated log *)
           if re_match ROTATED_RE (str_path env logfile) then ret tt
           else
             (* seek_offsets.get(logfile) or 0 *)
             let seek := default 0 (dict_get (seek_offsets e) logfile) in
             records <~ get_rotated_logs logfile seek (entered_at e) ;;
             line_found <~ search_rotated regex_comp seek records ;;
             if line_found then ret tt
             else raise (AssertionError
                           ("No line matching `" +:+ regex +:+ "` found in '"
                            +:+ str_path env logfile +:+ "'.")))
    tt matching_files.

Definition expect_errors_exit (e : expectation) : M unit :=
  foldM (fun (_ : unit) pair => expect_pair e pair) tt (regex_pairs e).

(** ** Sweep scanner *)

Definition _get_seek (fpath : string) : M Z :=
  infile <~ open_read fpath ;;
  match py_int (hd "" (lines_of (universal_newlines infile))) with
  | Some n => ret n
  | None => raise ValueError
  end.

(** The test of one line of a log file. *)
Definition is_error_line (errors_ignored : string)
    (errors_ignored_re : pattern) (line : string) : bool :=
  re_search ERRORS_RE line
  && negb (negb (String.eqb errors_ignored "")
           && re_search errors_ignored_re line).

(** One turn of the loop over the log files of the state directory. *)
Definition search_logfile (ignore_rules : list (string * string))
    (errors : list (string * string)) (logfile : string)
  : M (list (string * string)) :=
  (* skip if the log file is status file or rotated log *)
  if endswith logfile ".offset" || re_match ROTATED_RE logfile then ret errors
  else
    env <~ get_cluster_env ;;
    (* read seek offset and timestamp of last search *)
    let offset_file := "." +:+ logfile +:+ ".offset" in
    found <~ path_exists offset_file ;;
    bookmark <~
      (if (found : bool) then
         seek <~ _get_seek offset_file ;;
         timestamp <~ getmtime offset_file ;;
         ret (seek, timestamp)
       else ret (0, 0)) ;;
    let seek := fst bookmark in
    let timestamp := snd bookmark in
    let errors_ignored :=
      get_ignore_regex ignore_rules (ERRORS_IGNORED (cluster_era_alonzo env))
        logfile in
    errors_ignored_re <~ re_compile_or_raise errors_ignored ;;
    (* record offset for the "live" log file *)
    open_write offset_file
      (eof <~ get_eof_offset logfile ;; ret (py_str eof)) ;;;
    records <~ get_rotated_logs logfile seek timestamp ;;
    foldM (fun errors logfile_rec =>
             infile <~ open_read (RotableLog.logfile logfile_rec) ;;
             lines <~ lines_from infile seek ;;
             ret (errors
                  ++ map (fun line => (logfile, line))
                       (filter (fun line =>
                                  is_error_line errors_ignored
                                    errors_ignored_re line) lines)))
      errors records.

Definition search_cluster_artifacts : M (list (string * string)) :=
  ignore_rules <~ get_ignore_rules ;;
  logfiles <~ path_glob "*.std*" ;;
  foldM (search_logfile ignore_rules) [] logfiles.

(** ** Lock discipline on the trace

    A file is protected when it belongs to the rule store or is a bookmark
    sidecar.  [guarded held tr] says that every access of [tr] to a
    protected file happens while the lock is held ([held] counts the
    acquisitions not yet released). *)

Definition protected (name : string) : bool :=
  fnmatch name (ERRORS_RULES_FILE_NAME +:+ "_*") || endswith name ".offset".

Definition is_lock_event (e : event) : bool :=
  match e with
  | Acquire _ | Release _ => true
  | _ => false
  end.

Fixpoint guarded (held : nat) (tr : list event) : bool :=
  match tr with
  | [] => true
  | Acquire _ :: tr' => guarded (S held) tr'
  | Release _ :: tr' => guarded (Nat.pred held) tr'
  | Listdir _ :: tr' => guarded held tr'
  | Stat name :: tr' | Read name :: tr' | Write name :: tr'
  | Unlink name :: tr' =>
      (negb (protected name) || negb (Nat.eqb held 0)) && guarded held tr'
  end.

(** ** Scenarios *)

Definition eol : string := String NL "".

Definition demo_env : cluster_env :=
  ClusterEnv "/state" 0 "/tmp/pytest" false.

(** A directory with the given files; the clock reads [now] and moves by
    one tick at each write. *)
Definition demo_world (fs : list (string * file)) (now : Z) : world :=
  World (list_to_map fs) now (repeat 1 32) [] demo_env.

(** The live file was read up to byte 11 at time 10, then grew, was renamed
    to [node.stdout.1] at time 20, and a new live file was written at time
    30. *)
Definition rotated_world : world :=
  demo_world
    [ (".node.stdout.offset", File "11" 10);
      ("node.stdout.1", File ("0123456789" +:+ eol +:+ "old failed" +:+ eol) 20);
      ("node.stdout", File (":error: new" +:+ eol) 30) ]
    40.

(** The same rotation seen by [expect_errors]: on entry the live file holds
    11 bytes; during the scope it is rotated and the expected line is
    written to the new live file. *)
Definition before_rotation : world :=
  demo_world [ ("node.stdout", File ("0123456789" +:+ eol) 5) ] 10.

Definition rotate_and_write (w : world) : world :=
  World
    (<["node.stdout" := File ("MyExpectedError" +:+ eol) (clock w + 2)]>
       (<["node.stdout.1" := File ("0123456789" +:+ eol +:+ "bye" +:+ eol)
                               (clock w + 1)]> (files w)))
    (clock w + 3) (ticks w) (trace w) (cluster w).

(** The end-to-end scenario of the specification, and the same with a line
    that carries the error tag of the node's log format. *)
Definition disk_full_world (line : string) : world :=
  demo_world [ ("node.stdout", File ("ok" +:+ eol +:+ line +:+ eol) 5) ] 10.

(** Another process appends to a log file. *)
Definition append_line (name line : string) : M unit :=
  open_append name (line +:+ eol).

Definition run {A} (m : M A) (w : world) : res A := fst (m w).
Definition after {A} (m : M A) (w : world) : world := snd (m w).

(** ** Auxiliary definitions of the proofs *)










(** Two worlds with the same directory, clock and environment; only the
    trace may differ. *)
Definition same_files (w w' : world) : Prop :=
  files w' = files w /\ clock w' = clock w /\ ticks w' = ticks w
  /\ cluster w' = cluster w.

(** The world [w] with [evs] added to its trace. *)
Definition traced (w : world) (evs : list event) : world :=
  World (files w) (clock w) (ticks w) (trace w ++ evs) (cluster w).




(** The path has no wildcard character in it: [fnmatch] takes it for
    itself. *)
Definition glob_literal (s : string) : bool :=
  forallb (fun c => negb (Ascii.eqb c "*" || Ascii.eqb c "?" || Ascii.eqb c "["))
    (chars s).

(** * Properties *)

Example re_ex1 :
  option_map (fun p => re_search p ("x failed" +:+ String NL ""))
    (re_compile "db-sync-node:.* AsyncCancelled|fail[a-e]+" false) = Some true.
Proof. vm_compute. reflexivity. Qed.

Example fnmatch_ex1 :
  (fnmatch "node.stdout" "*.std*", fnmatch ".node.stdout.offset" "*.std*",
   fnmatch "node.stdout.1" "node.stdout*", fnmatch "a.log" "[!b-z].l?g",
   fnmatch "node.stderr" "*.stdout") = (true, true, true, true, false).
Proof. vm_compute. reflexivity. Qed.

Example py_int_ex :
  (py_int (" 1_024" +:+ String NL ""), py_int "-7", py_int "12a", py_int "",
   py_int (py_str 4096), py_str 0)
  = (Some 1024, Some (-7), None, None, Some 4096, "0").
Proof. vm_compute. reflexivity. Qed.

Example lines_ex :
  (lines_of (universal_newlines ("a" +:+ String CR (String NL "b"))),
   split_rule "x;;y;;;z", split_rule "abc")
  = (["a" +:+ String NL ""; "b"], ["x"; "y"; ";z"], ["abc"]).
Proof. vm_compute. reflexivity. Qed.

Example module_patterns_compile :
  re_compile ".+\.[0-9]+" false = Some ROTATED_RE
  /\ re_compile ":error:|failed|failure" true = Some ERRORS_RE
  /\ forallb (fun r => match re_compile r false with
                       | Some _ => true
                       | None => false
                       end) (ERRORS_IGNORED true) = true.
Proof. vm_compute. auto. Qed.

(** ** Rotation resolver *)

(** C1 (the code departs from the claim, and from its own comments): on the
    rotated directory, with the bookmark (offset 11, time 10), the resolver
    answers newest first and gives the saved offset to the newest file; the
    claim, like the comments in the source, wants [node.stdout.1] first with
    offset 11 and the live file second with offset 0. *)
Theorem get_rotated_logs_newest_first :
  run (get_rotated_logs "node.stdout" 11 10) rotated_world
  = Ok [ RotableLog.Make "node.stdout" 11 30;
         RotableLog.Make "node.stdout.1" 0 20 ]
  /\ run (get_rotated_logs "node.stdout" 11 10) rotated_world
     <> Ok [ RotableLog.Make "node.stdout.1" 11 20;
             RotableLog.Make "node.stdout" 0 30 ].
Proof. split; [ vm_compute; reflexivity | vm_compute; discriminate ]. Qed.

(** C2 (the code departs from the claim): both readers seek every segment
    to the bookmark offset.  The sweep over the rotated directory misses the
    line at the start of the new live file, which the claim has read from
    byte 0; and [expect_errors] fails although the expected line was written
    to the new live file during the scope. *)
Theorem segments_read_from_bookmark_offset :
  run search_cluster_artifacts rotated_world
  = Ok [ ("node.stdout", "old failed" +:+ eol) ]
  /\ (exists e w,
        expect_errors_enter [("*.stdout", "MyExpectedError")] "g1"
          before_rotation = (Ok e, w)
        /\ seek_offsets e = [("node.stdout", 11)]
        /\ run (expect_errors_exit e) (rotate_and_write w)
           = Raise (AssertionError
                      "No line matching `MyExpectedError` found in '/state/node.stdout'.")).
Proof.
  split; [ vm_compute; reflexivity | ].
  eexists. eexists. split; [ vm_compute; reflexivity | ].
  split; vm_compute; reflexivity.
Qed.

(** ** End-to-end scenario *)

(** C3, as the specification words it, fails: the line [ERROR: disk full]
    carries none of [:error:], [failed], [failure], so the first sweep
    reports nothing. *)
Lemma sweep_misses_untagged_line :
  run search_cluster_artifacts (disk_full_world "ERROR: disk full")
  <> Ok [ ("node.stdout", "ERROR: disk full") ]
  /\ run search_cluster_artifacts (disk_full_world "ERROR: disk full")
     <> Ok [ ("node.stdout", "ERROR: disk full" +:+ eol) ].
Proof. split; vm_compute; discriminate. Qed.

(** C3, amended: the sweep over the specification's directory answers the
    empty list; when the second line is [:ERROR: disk full] the sweep answers
    exactly that line (with its line terminator) for [node.stdout]; after
    [add_ignore_rule("node.stdout", "disk full", "g1")] a second sweep over
    a freshly appended identical line answers the empty list, and without
    the rule it would have answered the appended line. *)
Theorem sweep_end_to_end :
  let line := ":ERROR: disk full" in
  let w1 := after search_cluster_artifacts (disk_full_world line) in
  run search_cluster_artifacts (disk_full_world "ERROR: disk full") = Ok []
  /\ run search_cluster_artifacts (disk_full_world line)
     = Ok [ ("node.stdout", line +:+ eol) ]
  /\ run search_cluster_artifacts
       (after (add_ignore_rule "node.stdout" "disk full" "g1" ;;;
               append_line "node.stdout" line) w1)
     = Ok []
  /\ run search_cluster_artifacts (after (append_line "node.stdout" line) w1)
     = Ok [ ("node.stdout", line +:+ eol) ].
Proof. repeat split; vm_compute; reflexivity. Qed.

(** ** Deleting a rule group *)


Lemma bind_raise {A B} (m : M A) (k : A -> M B) w e w' :
  m w = (Raise e, w') -> bind m k w = (Raise e, w').
Proof. intros H. unfold bind. rewrite H. reflexivity. Qed.


(** ** The combined ignore regex *)

















(** ** The empty union *)



(** ** Reading the rule store *)







Lemma traced_traced w a b : traced (traced w a) b = traced w (a ++ b).
Proof. unfold traced. simpl. rewrite app_assoc. reflexivity. Qed.

Lemma same_files_traced w evs : same_files w (traced w evs).
Proof. repeat split. Qed.



(** ** Appending a rule and reading it back *)























